(** * migrate_eip_status.py: the [status] to [statusHistory] migration

    A shallow embedding of [migrate_eip_file] and [main] and the
    properties of the migration.

    - JSON values are the Python objects that [json.loads] builds.
    - A Python [dict] is an association list in insertion order.
    - The EIP data directory is a finite map from file names to files.
    - File writes and printed lines are recorded in a trace.
    - An uncaught Python exception is an explicit outcome.
    - The write of line 57 can fail: on a string that no codec encodes,
      or as the environment of the run decides. *)

From Stdlib Require Import ZArith Floats.SpecFloat.
From stdpp Require Import base option list strings gmap.

Local Open Scope string_scope.
Local Open Scope list_scope.

(** ** JSON values as Python objects *)

(** What [json.loads] returns: [None], [bool], [int], [float], [str],
    [list] and [dict] with [str] keys.  A [float] is an IEEE 754 value,
    [NaN] and the infinities included, as [json.loads] accepts them.  A
    [str] is held as its UTF-8 bytes; a lone surrogate, which [json.loads]
    builds from an escape such as [\ud800], is held as the three bytes
    [ED A0..BF 80..BF] that the [surrogatepass] handler gives it. *)
#[local] Set Warnings "-register-all".
Inductive json : Type :=
  | JNull
  | JBool (b : bool)
  | JInt (n : Z)
  | JFloat (x : spec_float)
  | JStr (s : string)
  | JList (items : list json)
  | JDict (fields : list (string * json)).

(** A [dict]: keys in insertion order.  [json.loads] never builds one with
    a repeated key. *)
Abbreviation pydict := (list (string * json)).

Definition keys (d : pydict) : list string := fst <$> d.

(** Python's truth value of an object, as [or], [not] and [if] test it. *)
Definition truthy (v : json) : bool :=
  match v with
  | JNull => false
  | JBool b => b
  | JInt n => negb (n =? 0)%Z
  | JFloat (S754_zero _) => false
  | JFloat _ => true
  | JStr s => negb (String.eqb s "")
  | JList items => negb (Nat.eqb (length items) 0)
  | JDict fields => negb (Nat.eqb (length fields) 0)
  end.

(** [a or b] *)
Definition py_or (a b : json) : json := if truthy a then a else b.

(** [isinstance(v, str)], [isinstance(v, list)], [isinstance(v, dict)] *)
Definition is_str (v : json) : bool :=
  match v with JStr _ => true | _ => false end.
Definition is_list (v : json) : bool :=
  match v with JList _ => true | _ => false end.
Definition is_dict (v : json) : bool :=
  match v with JDict _ => true | _ => false end.

Module Dict.

(** The value stored under [k], if any. *)
Fixpoint lookup (k : string) (d : pydict) : option json :=
  match d with
  | [] => None
  | (k', v) :: rest => if String.eqb k k' then Some v else lookup k rest
  end.

(** [d.get(k)]: the value under [k], [None] when the key is absent. *)
Definition get (d : pydict) (k : string) : json :=
  default JNull (lookup k d).

(** [d[k] = v], also [{**d, k: v}]: an existing key keeps its position,
    a new key goes last. *)
Fixpoint set (k : string) (v : json) (d : pydict) : pydict :=
  match d with
  | [] => [(k, v)]
  | (k', v') :: rest =>
      if String.eqb k k' then (k', v) :: rest else (k', v') :: set k v rest
  end.

(** [d.pop(k, None)], the popped value dropped. *)
Definition pop (k : string) (d : pydict) : pydict :=
  filter (λ kv, kv.1 ≠ k) d.

End Dict.

(** [k in v] for a key of a [dict]; no other JSON value has keys. *)
Definition has_key (k : string) (v : json) : bool :=
  match v with
  | JDict d => bool_decide (is_Some (Dict.lookup k d))
  | _ => false
  end.

(** ** The rewrite of one document (lines 31 to 54) *)

(** Line 41: [fork.get("statusHistory") or []]. *)
Definition existing_history (f : pydict) : json :=
  py_or (Dict.get f "statusHistory") (JList []).

(** Lines 36 to 52: one turn of the loop on [fork], with the flag
    [modified] as it stands, giving the element appended to [migrated] and
    the flag afterwards. *)
Definition migrate_fork (fork : json) (modified : bool) : json * bool :=
  match fork with
  | JDict f =>
      let status_history := existing_history f in
      let new_fork := Dict.set "statusHistory" status_history f in
      match Dict.get f "status" with
      | JStr status_value =>
          let new_fork :=
            if truthy (JStr status_value) && negb (truthy status_history)
            then Dict.set "statusHistory"
                   (JList [JDict [("status", JStr status_value)]]) new_fork
            else new_fork in
          (JDict (Dict.pop "status" new_fork), true)
      | _ => (JDict new_fork, modified)
      end
  | _ => (fork, modified)
  end.

(** The [for] loop of line 36, threading [migrated] and [modified]. *)
Fixpoint migrate_forks (forks migrated : list json) (modified : bool)
  : list json * bool :=
  match forks with
  | [] => (migrated, modified)
  | fork :: rest =>
      let '(new_fork, modified) := migrate_fork fork modified in
      migrate_forks rest (migrated ++ [new_fork]) modified
  end.

(** Uncaught exceptions. *)
Inductive exn : Type :=
  | AttributeError       (* [data.get] on a value that is not a [dict] *)
  | SystemExit           (* the data directory is missing *)
  | UnicodeEncodeError   (* line 57: the text cannot be encoded *)
  | OSError.             (* line 57: the file cannot be opened or stored *)

(** Lines 31 to 54 on the parsed [data]: the document left in memory and
    the flag [modified], or the exception of [data.get]. *)
Definition migrate_data (data : json) : exn + json * bool :=
  match data with
  | JDict d =>
      match Dict.get d "forkRelationships" with
      | JList fork_relationships =>
          let '(migrated, modified) :=
            migrate_forks fork_relationships [] false in
          inr (JDict (Dict.set "forkRelationships" (JList migrated) d),
               modified)
      | _ => inr (data, false)
      end
  | _ => inl AttributeError
  end.

(** The test of line 44 on an element of the array:
    [isinstance(fork, dict) and isinstance(fork.get("status"), str)]. *)
Definition string_status (fork : json) : bool :=
  match fork with
  | JDict f => is_str (Dict.get f "status")
  | _ => false
  end.

(** The element that one turn of the loop appends to [migrated]. *)
Definition new_entry (fork : json) : json := (migrate_fork fork false).1.

(** The [forkRelationships] array of a document, when it has one. *)
Definition forks_of (data : json) : option (list json) :=
  match data with
  | JDict d =>
      match Dict.get d "forkRelationships" with
      | JList forks => Some forks
      | _ => None
      end
  | _ => None
  end.

(** ** The data directory, the trace, and the monad of the script *)

(** A file of the data directory, by what [json.loads(path.read_text())]
    makes of it: its text denotes a JSON value, or reading or parsing
    it raises.  The text written by [json.dumps] denotes the value dumped;
    an empty file does not parse. *)
Inductive file : Type :=
  | Json (data : json)
  | Malformed.

(** Printed lines.  The text of the exception in the error line is left
    out. *)
Inductive line : Type :=
  | ErrorReading (name : string)
  | Found (n : nat)
  | MigratedFile (name : string)
  | SummaryHeader
  | TotalFiles (n : Z)
  | MigratedCount (n : Z)
  | UnchangedCount (n : Z).

(** [WriteText]: the file was opened and the whole text stored.
    [Truncated]: the file was opened, which empties it, and the write then
    raised. *)
Inductive event : Type :=
  | Print (l : line)
  | WriteText (name : string) (data : json)
  | Truncated (name : string).

(** A [str] with a lone surrogate: the byte [ED] followed by a byte from
    [A0] up.  No codec encodes it. *)
Fixpoint lone_surrogate (s : string) : bool :=
  match s with
  | String a rest =>
      match rest with
      | String b _ =>
          Nat.eqb (Ascii.nat_of_ascii a) 237
          && Nat.leb 160 (Ascii.nat_of_ascii b)
          || lone_surrogate rest
      | EmptyString => false
      end
  | EmptyString => false
  end.

(** A value with a lone surrogate in one of its strings or keys:
    [json.dumps(..., ensure_ascii=False)] leaves it in the text. *)
Fixpoint unencodable (v : json) : bool :=
  match v with
  | JStr s => lone_surrogate s
  | JList items => existsb unencodable items
  | JDict fields =>
      existsb (λ kv, let '(k, v) := kv in lone_surrogate k || unencodable v)
              fields
  | _ => false
  end.

(** How [path.write_text] can fail.
    - [OpenFails]: opening the file for writing raises [OSError]; the file
      is untouched.
    - [EncodeFails]: the file is opened, and so emptied, and the codec of
      the locale raises [UnicodeEncodeError].
    - [StoreFails cut]: the file is opened and storing the text raises
      [OSError]; the text is cut short ([cut]), or all of it but the final
      newline is there. *)
Inductive fault : Type :=
  | OpenFails
  | EncodeFails
  | StoreFails (cut : bool).

(** Files are named by their name inside [EIPS_DIR]; a name without an
    entry is a file that does not exist.  [faults] is the environment of
    the run: whether, and how, writing a value to a file fails for a
    reason outside the value (permissions, the locale, the device). *)
Record world : Type := World {
  faults : string → json → option fault;
  disk : gmap string file;
  trace : list event
}.

(** The fault of line 57 on [data]: opening comes first, then encoding,
    which a lone surrogate fails everywhere, then storing. *)
Definition write_fault (w : world) (path : string) (data : json)
  : option fault :=
  match faults w path data with
  | Some OpenFails => Some OpenFails
  | Some EncodeFails => Some EncodeFails
  | other => if unencodable data then Some EncodeFails else other
  end.

Definition exn_of (ft : fault) : exn :=
  match ft with
  | EncodeFails => UnicodeEncodeError
  | OpenFails | StoreFails _ => OSError
  end.

(** The world after the text of [data] is stored in [path]. *)
Definition stored (path : string) (data : json) (w : world) : world :=
  World (faults w) (<[path := Json data]> (disk w))
        (trace w ++ [WriteText path data]).

(** The world after the write of [data] to [path] failed.  An empty file
    or a text cut short is not JSON. *)
Definition failed (ft : fault) (path : string) (data : json) (w : world)
  : world :=
  match ft with
  | OpenFails => w
  | EncodeFails =>
      World (faults w) (<[path := Malformed]> (disk w))
            (trace w ++ [Truncated path])
  | StoreFails cut =>
      World (faults w)
            (<[path := if cut then Malformed else Json data]> (disk w))
            (trace w ++ [Truncated path])
  end.

Inductive outcome (A : Type) : Type :=
  | Returned (a : A) (w : world)
  | Raised (e : exn) (w : world).
Arguments Returned {A} a w.
Arguments Raised {A} e w.

Definition M (A : Type) : Type := world → outcome A.

Definition ret {A} (a : A) : M A := λ w, Returned a w.

Definition bind {A B} (c : M A) (k : A → M B) : M B :=
  λ w, match c w with
       | Returned a w' => k a w'
       | Raised e w' => Raised e w'
       end.

Definition raise {A} (e : exn) : M A := λ w, Raised e w.

Declare Scope script_scope.
Delimit Scope script_scope with script.
Notation "x <- c ;; k" := (bind c (λ x, k))
  (at level 100, c at next level, right associativity) : script_scope.
Notation "c ;;; k" := (bind c (λ _, k))
  (at level 100, right associativity) : script_scope.
Local Open Scope script_scope.

(** [print(...)] *)
Definition print (l : line) : M unit :=
  λ w, Returned () (World (faults w) (disk w) (trace w ++ [Print l])).

(** [json.loads(path.read_text())] under [try]: the parsed value, or
    [None] when an exception was caught. *)
Definition try_load (path : string) : M (option json) :=
  λ w, match disk w !! path with
       | Some (Json data) => Returned (Some data) w
       | Some Malformed | None => Returned None w
       end.

(** [path.write_text(json.dumps(data, indent=2, ensure_ascii=False) + "\n")]:
    nothing catches what it raises. *)
Definition write_text (path : string) (data : json) : M unit :=
  λ w, match write_fault w path data with
       | None => Returned () (stored path data w)
       | Some ft => Raised (exn_of ft) (failed ft path data w)
       end.

(** Lines 31 to 54, in the monad. *)
Definition rewrite_data (data : json) : M (json * bool) :=
  match migrate_data data with
  | inl e => raise e
  | inr r => ret r
  end.

Definition migrate_eip_file (path : string) : M bool :=
  loaded <- try_load path ;;
  match loaded with
  | None => print (ErrorReading path) ;;; ret false
  | Some data =>
      r <- rewrite_data data ;;
      let '(data, modified) := r in
      (if modified : bool then write_text path data else ret ()) ;;;
      ret modified
  end.

(** The loop of lines 69 to 73. *)
Fixpoint migrate_files (files : list string) (migrated : Z) : M Z :=
  match files with
  | [] => ret migrated
  | file_path :: rest =>
      changed <- migrate_eip_file file_path ;;
      migrated <- (if changed : bool
                   then print (MigratedFile file_path) ;;; ret (migrated + 1)%Z
                   else ret migrated) ;;
      migrate_files rest migrated
  end.

(** [main], given what line 63 and line 66 find: [None] when [EIPS_DIR]
    does not exist, otherwise the sorted names of its [*.json] files. *)
Definition main (listing : option (list string)) : M unit :=
  match listing with
  | None => raise SystemExit
  | Some files =>
      print (Found (length files)) ;;;
      migrated <- migrate_files files 0%Z ;;
      print SummaryHeader ;;;
      print (TotalFiles (Z.of_nat (length files))) ;;;
      print (MigratedCount migrated) ;;;
      print (UnchangedCount (Z.of_nat (length files) - migrated))
  end.



(** The four lines of the summary. *)
Definition summary (total migrated : Z) : list event :=
  [Print SummaryHeader; Print (TotalFiles total);
   Print (MigratedCount migrated); Print (UnchangedCount (total - migrated))].

(** The world that an outcome leaves behind, returned or raised. *)
Definition final_world {A} (o : outcome A) : world :=
  match o with
  | Returned _ w | Raised _ w => w
  end.

(** The names of the files written, and of the files announced by the
    line of line 73, in the order of the trace. *)
Definition written (tr : list event) : list string :=
  omap (λ e, match e with WriteText name _ => Some name | _ => None end) tr.

Definition announced (tr : list event) : list string :=
  omap (λ e, match e with
             | Print (MigratedFile name) => Some name
             | _ => None
             end) tr.

(** A file with nothing left to migrate: it fails to load, or it parses to
    an object without a [forkRelationships] array or with an array in which
    no element passes the test of line 44. *)
Definition settled (f : option file) : bool :=
  match f with
  | Some (Json data) =>
      is_dict data
      && match forks_of data with
         | Some forks => negb (existsb string_status forks)
         | None => true
         end
  | Some Malformed | None => true
  end.

(** ** Sample documents *)

Module Samples.

Definition obj (fields : pydict) : json := JDict fields.
Definition doc (forks : list json) : json :=
  JDict [("forkRelationships", JList forks)].

(** [{"forkRelationships":[{"status":""}]}] *)
Definition empty_status : json := doc [obj [("status", JStr "")]].

(** [{"forkRelationships":[{"status":"Included"}]}] *)
Definition included : json := doc [obj [("status", JStr "Included")]].

(** [{"forkRelationships":
      [{"status":"Draft","statusHistory":[{"status":"Final"}]}]}] *)
Definition draft_final : json :=
  doc [obj [("status", JStr "Draft");
            ("statusHistory", JList [obj [("status", JStr "Final")]])]].

(** [{"forkRelationships":[null,"x",{"status":"A"}]}] *)
Definition mixed : json :=
  doc [JNull; JStr "x"; obj [("status", JStr "A")]].

(** [{"forkRelationships":[{"forkName":"Pectra"}]}] *)
Definition bare : json := doc [obj [("forkName", JStr "Pectra")]].

(** [{"forkRelationships":[{"forkName":"Pectra","status":null}]}] *)
Definition null_status : json :=
  doc [obj [("forkName", JStr "Pectra"); ("status", JNull)]].

(** [{"forkRelationships":[{"statusHistory":"abc"}]}] *)
Definition text_history : json :=
  doc [obj [("statusHistory", JStr "abc")]].

(** [{"id":1}] *)
Definition no_forks : json := JDict [("id", JInt 1)].

(** An environment in which no write fails for an outside reason. *)
Definition no_faults : string → json → option fault := λ _ _, None.

Definition on_disk (name : string) (f : file) : world :=
  World no_faults {[ name := f ]} [].

(** [{"forkRelationships":[{"status":"A","note":"\ud800"}]}] *)
Definition surrogate_note : json :=
  doc [obj [("status", JStr "A");
            ("note", JStr (String (Ascii.ascii_of_nat 237)
                            (String (Ascii.ascii_of_nat 160)
                               (String (Ascii.ascii_of_nat 128) ""))))]].

End Samples.

Example migrate_included :
  migrate_data Samples.included
  = inr (Samples.doc
           [JDict [("statusHistory",
                    JList [JDict [("status", JStr "Included")]])]],
         true).
Proof. reflexivity. Qed.

Example migrate_draft_final :
  migrate_data Samples.draft_final
  = inr (Samples.doc
           [JDict [("statusHistory",
                    JList [JDict [("status", JStr "Final")]])]],
         true).
Proof. reflexivity. Qed.

Example migrate_mixed :
  migrate_data Samples.mixed
  = inr (Samples.doc
           [JNull; JStr "x";
            JDict [("statusHistory", JList [JDict [("status", JStr "A")]])]],
         true).
Proof. reflexivity. Qed.

Example migrate_bare :
  migrate_data Samples.bare
  = inr (Samples.doc
           [JDict [("forkName", JStr "Pectra"); ("statusHistory", JList [])]],
         false).
Proof. reflexivity. Qed.

Example migrate_toplevel_list : migrate_data (JList []) = inl AttributeError.
Proof. reflexivity. Qed.

(** ** Dictionaries *)

Section DictFacts.

Implicit Types (k : string) (v : json) (d : pydict).

Lemma lookup_set_eq k v d : Dict.lookup k (Dict.set k v d) = Some v.
Proof.
  induction d as [|[k' v'] d IH]; simpl.
  - by rewrite String.eqb_refl.
  - destruct (String.eqb_spec k k') as [->|Hne]; simpl.
    + by rewrite String.eqb_refl.
    + by destruct (String.eqb_spec k k').
Qed.

Lemma lookup_set_ne k k' v d :
  k ≠ k' → Dict.lookup k' (Dict.set k v d) = Dict.lookup k' d.
Proof.
  intros Hne. induction d as [|[k0 v0] d IH]; simpl.
  - by destruct (String.eqb_spec k' k) as [->|].
  - destruct (String.eqb_spec k k0) as [->|]; simpl.
    + by destruct (String.eqb_spec k' k0) as [->|].
    + by rewrite IH.
Qed.

Lemma pop_cons k k' v d :
  Dict.pop k ((k', v) :: d)
  = if String.eqb k k' then Dict.pop k d else (k', v) :: Dict.pop k d.
Proof.
  unfold Dict.pop. rewrite filter_cons. simpl.
  destruct (String.eqb_spec k k') as [->|Hne]; case_decide; congruence.
Qed.

Lemma lookup_pop_eq k d : Dict.lookup k (Dict.pop k d) = None.
Proof.
  induction d as [|[k' v'] d IH]; [done|].
  rewrite pop_cons. destruct (String.eqb_spec k k') as [->|Hne]; [done|].
  simpl. by destruct (String.eqb_spec k k').
Qed.

Lemma lookup_pop_ne k k' d :
  k ≠ k' → Dict.lookup k' (Dict.pop k d) = Dict.lookup k' d.
Proof.
  intros Hne. induction d as [|[k0 v0] d IH]; [done|].
  rewrite pop_cons. destruct (String.eqb_spec k k0) as [->|]; simpl.
  - by destruct (String.eqb_spec k' k0) as [->|].
  - by rewrite IH.
Qed.

Lemma get_lookup d k v : Dict.lookup k d = Some v → Dict.get d k = v.
Proof. unfold Dict.get. by intros ->. Qed.

Lemma get_str_lookup d k s :
  Dict.get d k = JStr s ↔ Dict.lookup k d = Some (JStr s).
Proof.
  unfold Dict.get. destruct (Dict.lookup k d); simpl; split; congruence.
Qed.

Lemma get_list_lookup d k l :
  Dict.get d k = JList l ↔ Dict.lookup k d = Some (JList l).
Proof.
  unfold Dict.get. destruct (Dict.lookup k d); simpl; split; congruence.
Qed.

(** The keys stay distinct, as they are in every [dict]. *)
Lemma keys_set k v d :
  keys (Dict.set k v d) = if bool_decide (k ∈ keys d) then keys d
                          else keys d ++ [k].
Proof.
  induction d as [|[k' v'] d IH]; simpl; [done|].
  destruct (String.eqb_spec k k') as [->|Hne]; simpl.
  - rewrite bool_decide_eq_true_2; [done|]. apply list_elem_of_here.
  - rewrite IH. destruct (bool_decide_reflect (k ∈ keys d)) as [Hin|Hin].
    + rewrite bool_decide_eq_true_2; [done|]. by apply list_elem_of_further.
    + rewrite bool_decide_eq_false_2; [done|].
      intros [?|?]%elem_of_cons; done.
Qed.

Lemma NoDup_keys_set k v d : NoDup (keys d) → NoDup (keys (Dict.set k v d)).
Proof.
  intros Hd. rewrite keys_set. case_bool_decide as Hin; [done|].
  apply NoDup_app. split_and!; [done| |apply NoDup_singleton].
  intros x Hx ->%list_elem_of_singleton. done.
Qed.

Lemma NoDup_keys_pop k d : NoDup (keys d) → NoDup (keys (Dict.pop k d)).
Proof.
  induction d as [|[k' v'] d IH]; [done|].
  rewrite pop_cons. simpl. intros [Hk' Hd]%NoDup_cons.
  destruct (String.eqb k k'); [by apply IH|].
  simpl. apply NoDup_cons. split; [|by apply IH].
  intros Hin. apply Hk'. unfold keys, Dict.pop in Hin.
  apply list_elem_of_fmap in Hin as [kv [-> Hkv%list_elem_of_filter]].
  apply list_elem_of_fmap. exists kv. by destruct Hkv.
Qed.

End DictFacts.

(** ** One turn of the loop, and the loop *)

Section Loop.

Implicit Types (fork : json) (f : pydict) (forks : list json).

Lemma migrate_fork_split fork modified :
  migrate_fork fork modified
  = (new_entry fork, modified || string_status fork).
Proof.
  unfold new_entry.
  destruct fork as [| | | | |items|f]; simpl; try by rewrite orb_false_r.
  destruct (Dict.get f "status"); simpl;
    by rewrite ?orb_false_r, ?orb_true_r.
Qed.

Lemma migrate_forks_spec forks migrated modified :
  migrate_forks forks migrated modified
  = (migrated ++ (new_entry <$> forks),
     modified || existsb string_status forks).
Proof.
  revert migrated modified.
  induction forks as [|fork forks IH]; intros migrated modified; simpl.
  - by rewrite app_nil_r, orb_false_r.
  - rewrite migrate_fork_split, IH, <-app_assoc, orb_assoc. done.
Qed.

(** What the new entry of a [dict] holds under [status]. *)
Lemma new_entry_status f :
  ∃ f', new_entry (JDict f) = JDict f' ∧
        Dict.lookup "status" f'
        = if is_str (Dict.get f "status") then None
          else Dict.lookup "status" f.
Proof.
  unfold new_entry. simpl.
  destruct (Dict.get f "status") eqn:Hst; simpl; eexists; (split; [done|]);
    rewrite ?lookup_pop_eq, ?lookup_set_ne; done.
Qed.

Lemma new_entry_not_dict fork : is_dict fork = false → new_entry fork = fork.
Proof. by destruct fork. Qed.

Lemma new_entry_is_dict fork : is_dict (new_entry fork) = is_dict fork.
Proof.
  destruct fork as [| | | | |items|f]; try done.
  unfold new_entry. simpl. by destruct (Dict.get f "status").
Qed.

(** After one turn no element passes the test of line 44 any more. *)
Lemma string_status_new_entry fork : string_status (new_entry fork) = false.
Proof.
  destruct fork as [| | | | |items|f]; try done.
  destruct (new_entry_status f) as (f' & -> & Hst). simpl.
  unfold Dict.get at 1. rewrite Hst.
  destruct (Dict.get f "status") eqn:Hget; simpl; try done;
    unfold Dict.get in Hget; destruct (Dict.lookup "status" f); simpl in *;
    by subst.
Qed.

Lemma existsb_string_status_new_entry forks :
  existsb string_status (new_entry <$> forks) = false.
Proof.
  induction forks as [|fork forks IH]; csimpl; [done|].
  by rewrite string_status_new_entry, IH.
Qed.

Lemma existsb_string_status forks :
  existsb string_status forks = true
  ↔ ∃ f s, JDict f ∈ forks ∧ Dict.lookup "status" f = Some (JStr s).
Proof.
  rewrite existsb_exists. split.
  - intros (fork & Hin%list_elem_of_In & Hst).
    destruct fork as [| | | | |items|f]; try done. simpl in Hst.
    destruct (Dict.get f "status") as [| | | |s| |] eqn:Hget; try done.
    exists f, s. by rewrite <-get_str_lookup.
  - intros (f & s & Hin & Hst). exists (JDict f).
    split; [by apply list_elem_of_In|].
    simpl. apply get_str_lookup in Hst. by rewrite Hst.
Qed.

End Loop.

(** ** The document, and the file *)

Section Document.

Implicit Types (d : pydict) (data : json) (forks : list json).

Lemma migrate_data_forks d forks :
  Dict.get d "forkRelationships" = JList forks →
  migrate_data (JDict d)
  = inr (JDict (Dict.set "forkRelationships" (JList (new_entry <$> forks)) d),
         existsb string_status forks).
Proof.
  intros Hget. unfold migrate_data. rewrite Hget.
  by rewrite migrate_forks_spec.
Qed.

Lemma migrate_data_no_forks d :
  is_list (Dict.get d "forkRelationships") = false →
  migrate_data (JDict d) = inr (JDict d, false).
Proof.
  intros Hget. unfold migrate_data.
  by destruct (Dict.get d "forkRelationships").
Qed.

Lemma forks_of_set d forks :
  forks_of (JDict (Dict.set "forkRelationships" (JList forks) d))
  = Some forks.
Proof. unfold forks_of, Dict.get. by rewrite lookup_set_eq. Qed.

Lemma forks_of_Some data forks :
  forks_of data = Some forks
  ↔ ∃ d, data = JDict d ∧ Dict.get d "forkRelationships" = JList forks.
Proof.
  split.
  - destruct data as [| | | | | |d]; try done. simpl.
    destruct (Dict.get d "forkRelationships") eqn:Hget; try done.
    intros [= ->]. by exists d.
  - intros (d & -> & Hget). simpl. by rewrite Hget.
Qed.

Lemma forks_of_None d :
  forks_of (JDict d) = None
  ↔ is_list (Dict.get d "forkRelationships") = false.
Proof. simpl. by destruct (Dict.get d "forkRelationships"). Qed.

(** The migration of a document that is a [dict] always returns. *)
Lemma migrate_data_dict d :
  migrate_data (JDict d)
  = inr (match forks_of (JDict d) with
         | Some forks =>
             (JDict (Dict.set "forkRelationships"
                       (JList (new_entry <$> forks)) d),
              existsb string_status forks)
         | None => (JDict d, false)
         end).
Proof.
  destruct (forks_of (JDict d)) as [forks|] eqn:Hforks.
  - apply forks_of_Some in Hforks as (? & [= <-] & Hget).
    by apply migrate_data_forks.
  - apply migrate_data_no_forks. by apply forks_of_None.
Qed.

Lemma migrate_data_raises data e :
  migrate_data data = inl e ↔ is_dict data = false ∧ e = AttributeError.
Proof.
  destruct data as [| | | | | |d]; simpl;
    try (split; [by intros [= <-]|by intros [_ ->]]).
  split; [|by intros [? _]].
  destruct (Dict.get d "forkRelationships"); try done.
  by destruct (migrate_forks _ _ _).
Qed.

(** [migrate_eip_file], case by case. *)
Lemma migrate_eip_file_eq path w :
  migrate_eip_file path w
  = match disk w !! path with
    | Some (Json data) =>
        match migrate_data data with
        | inl e => Raised e w
        | inr (data', true) =>
            match write_fault w path data' with
            | None => Returned true (stored path data' w)
            | Some ft => Raised (exn_of ft) (failed ft path data' w)
            end
        | inr (_, false) => Returned false w
        end
    | Some Malformed | None =>
        Returned false
          (World (faults w) (disk w)
                 (trace w ++ [Print (ErrorReading path)]))
    end.
Proof.
  unfold migrate_eip_file, bind, try_load, rewrite_data, write_text.
  destruct (disk w !! path) as [[data|]|]; try done.
  destruct (migrate_data data) as [e|[data' [|]]]; try done.
  unfold ret. by destruct (write_fault w path data').
Qed.

(** A call that returns [True] has stored the migrated document. *)
Lemma migrate_eip_file_true path w w' :
  migrate_eip_file path w = Returned true w' ↔
  ∃ data data',
    disk w !! path = Some (Json data) ∧
    migrate_data data = inr (data', true) ∧
    write_fault w path data' = None ∧
    w' = stored path data' w.
Proof.
  rewrite migrate_eip_file_eq. split.
  - destruct (disk w !! path) as [[data|]|]; try done.
    destruct (migrate_data data) as [e|[data' [|]]] eqn:Hdata; try done.
    destruct (write_fault w path data') eqn:Hft; try done.
    intros [= <-]. by exists data, data'.
  - intros (data & data' & -> & -> & -> & ->). done.
Qed.

(** A call that returns [False] has changed nothing on disk and written
    nothing. *)
Lemma migrate_eip_file_false path w w' :
  migrate_eip_file path w = Returned false w' →
  faults w' = faults w ∧ disk w' = disk w ∧
  (w' = w ∨ trace w' = trace w ++ [Print (ErrorReading path)]).
Proof.
  rewrite migrate_eip_file_eq.
  destruct (disk w !! path) as [[data|]|];
    [|intros [= <-]; simpl; by auto..].
  destruct (migrate_data data) as [e|[data' [|]]]; try done.
  - by destruct (write_fault w path data').
  - intros [= <-]. by auto.
Qed.

End Document.

(** ** Entries of the migrated array *)

Section Entries.

Implicit Types (f : pydict) (s : string) (forks : list json).

Lemma existing_history_absent f :
  Dict.lookup "statusHistory" f = None → existing_history f = JList [].
Proof. unfold existing_history, Dict.get. by intros ->. Qed.

Lemma existing_history_list f items :
  Dict.lookup "statusHistory" f = Some (JList items) →
  existing_history f = JList items.
Proof.
  unfold existing_history, Dict.get. intros ->. by destruct items.
Qed.

Lemma new_entry_no_string_status f :
  is_str (Dict.get f "status") = false →
  new_entry (JDict f)
  = JDict (Dict.set "statusHistory" (existing_history f) f).
Proof.
  unfold new_entry. simpl. by destruct (Dict.get f "status").
Qed.

Lemma new_entry_string_status f s :
  Dict.lookup "status" f = Some (JStr s) →
  new_entry (JDict f)
  = JDict (Dict.pop "status"
             (if truthy (JStr s) && negb (truthy (existing_history f))
              then Dict.set "statusHistory"
                     (JList [JDict [("status", JStr s)]])
                     (Dict.set "statusHistory" (existing_history f) f)
              else Dict.set "statusHistory" (existing_history f) f)).
Proof.
  intros Hst%get_str_lookup. unfold new_entry. simpl. by rewrite Hst.
Qed.


(** Keys other than [status] and [statusHistory] are copied. *)
Lemma new_entry_other f k :
  k ≠ "status" → k ≠ "statusHistory" →
  ∃ f', new_entry (JDict f) = JDict f' ∧
        Dict.lookup k f' = Dict.lookup k f.
Proof.
  intros Hk1 Hk2. unfold new_entry. simpl.
  destruct (Dict.get f "status"); simpl; eexists; (split; [done|]);
    rewrite ?lookup_pop_ne by done;
    try case_match; rewrite ?lookup_set_ne by done; done.
Qed.

Lemma lookup_new_entries forks i :
  (new_entry <$> forks) !! i = new_entry <$> forks !! i.
Proof. apply list_lookup_fmap. Qed.

End Entries.

(** ** Properties of the migration *)

(** C1, as stated, fails: an entry whose [status] is not a string keeps the
    key.  For [{"forkRelationships":[{"forkName":"Pectra","status":null}]}]
    the migration returns, changes nothing on disk, and the entry of the
    array in memory still has its [status]. *)
Lemma status_of_other_type_survives :
  let w := Samples.on_disk "eip-7702.json" (Json Samples.null_status) in
  let fork' := JDict [("forkName", JStr "Pectra"); ("status", JNull);
                      ("statusHistory", JList [])] in
  migrate_eip_file "eip-7702.json" w = Returned false w ∧
  migrate_data Samples.null_status = inr (Samples.doc [fork'], false) ∧
  forks_of (Samples.doc [fork']) = Some [fork'] ∧
  has_key "status" fork' = true ∧
  (∃ fork, forks_of Samples.null_status = Some [fork] ∧
           has_key "status" fork = true).
Proof.
  cbv zeta. rewrite migrate_eip_file_eq.
  split_and!; [by vm_compute|done|done|done|by eexists].
Qed.

(** C1, amended: when [migrate_eip_file] returns on a file that parses, no
    element of the [forkRelationships] array, in memory or on disk, has a
    [status] that is a string; an entry whose [status] was a string has no
    [status] key, an entry whose [status] is of another type keeps it. *)
Theorem no_string_status_after_migration path w data modified w' :
  disk w !! path = Some (Json data) →
  migrate_eip_file path w = Returned modified w' →
  ∃ data',
    migrate_data data = inr (data', modified) ∧
    disk w' !! path = Some (Json (if modified then data' else data)) ∧
    (∀ out forks', out = data' ∨ disk w' !! path = Some (Json out) →
       forks_of out = Some forks' →
       ∀ fork, fork ∈ forks' → string_status fork = false) ∧
    (∀ forks, forks_of data = Some forks →
       forks_of data' = Some (new_entry <$> forks)) ∧
    (∀ f, ∃ f', new_entry (JDict f) = JDict f' ∧
       Dict.lookup "status" f'
       = if is_str (Dict.get f "status") then None
         else Dict.lookup "status" f).
Proof.
  intros Hfile Hrun. rewrite migrate_eip_file_eq, Hfile in Hrun.
  destruct data as [| | | | | |d]; try done.
  rewrite migrate_data_dict in *.
  assert (∀ forks, existsb string_status forks = false →
            ∀ fork, fork ∈ forks → string_status fork = false) as Hnone.
  { intros forks Hex fork Hin. apply not_true_is_false. intros Hst.
    apply not_true_iff_false in Hex. apply Hex, existsb_exists.
    exists fork. by rewrite <-list_elem_of_In. }
  destruct (forks_of (JDict d)) as [forks|] eqn:Hforks.
  - set (data' := JDict (Dict.set "forkRelationships" _ d)) in *.
    assert (forks_of data' = Some (new_entry <$> forks)) as Hforks'
      by apply forks_of_set.
    exists data'. destruct (existsb string_status forks) eqn:Hex.
    + destruct (write_fault w path data'); [done|].
      injection Hrun as <- <-. simpl. rewrite lookup_insert_eq.
      split_and!; [done|done| |by intros ? [= <-]|apply new_entry_status].
      intros out forks' [->|[= <-]] Hout; rewrite Hforks' in Hout;
        injection Hout as <-;
        apply Hnone, existsb_string_status_new_entry.
    + injection Hrun as <- <-. simpl.
      split_and!; [done|done| |by intros ? [= <-]|apply new_entry_status].
      intros out forks' [->|Hout'] Hout.
      * rewrite Hforks' in Hout. injection Hout as <-.
        apply Hnone, existsb_string_status_new_entry.
      * rewrite Hfile in Hout'. injection Hout' as <-.
        rewrite Hforks in Hout. injection Hout as <-. by apply Hnone.
  - injection Hrun as <- <-. exists (JDict d).
    split_and!; [done|done| |done|apply new_entry_status].
    intros out forks' [->|Hout'] Hout; [congruence|].
    rewrite Hfile in Hout'. injection Hout' as <-. congruence.
Qed.

Lemma no_string_status_after_migration_witness :
  ∃ data',
    migrate_data Samples.mixed = inr (data', true) ∧
    ∀ forks', forks_of data' = Some forks' →
              ∀ fork, fork ∈ forks' → string_status fork = false.
Proof.
  destruct (no_string_status_after_migration "eip-1559.json"
              (Samples.on_disk "eip-1559.json" (Json Samples.mixed))
              Samples.mixed true
              (World Samples.no_faults {[ "eip-1559.json" := Json (Samples.doc
                   [JNull; JStr "x";
                    JDict [("statusHistory",
                            JList [JDict [("status", JStr "A")]])]]) ]}
                 [WriteText "eip-1559.json" (Samples.doc
                   [JNull; JStr "x";
                    JDict [("statusHistory",
                            JList [JDict [("status", JStr "A")]])]])]))
    as (data' & Hdata & _ & Hnone & _).
  - vm_compute. reflexivity.
  - vm_compute. reflexivity.
  - exists data'. split; [exact Hdata|].
    intros forks' Hforks. apply (Hnone data' forks'); [by left|exact Hforks].
Defined.

(** C2: the migration is idempotent.  For a file that parses as JSON,
    whenever a first run returns, a second run on what it left returns
    [False] and leaves the directory and the trace as they are: nothing is
    rewritten.  The first run returns whenever lines 31 to 54 do (the
    document is an object) and the write of line 57, when the document is
    marked changed, does not fail. *)
Theorem migration_idempotent path w data :
  disk w !! path = Some (Json data) →
  (∀ modified w1,
     migrate_eip_file path w = Returned modified w1 →
     migrate_eip_file path w1 = Returned false w1) ∧
  (∀ data' modified,
     migrate_data data = inr (data', modified) →
     (modified = true → write_fault w path data' = None) →
     ∃ w1, migrate_eip_file path w = Returned modified w1).
Proof.
  intros Hfile. split.
  - intros modified w1 Hrun.
    rewrite migrate_eip_file_eq, Hfile in Hrun.
    destruct data as [| | | | | |d]; try done.
    rewrite migrate_data_dict in Hrun.
    destruct (forks_of (JDict d)) as [forks|] eqn:Hforks.
    + destruct (existsb string_status forks) eqn:Hex.
      * destruct (write_fault w path _); [done|].
        injection Hrun as <- <-.
        rewrite migrate_eip_file_eq. simpl. rewrite lookup_insert_eq.
        rewrite migrate_data_dict, forks_of_set.
        by rewrite existsb_string_status_new_entry.
      * injection Hrun as <- <-.
        rewrite migrate_eip_file_eq, Hfile, migrate_data_dict, Hforks.
        by rewrite Hex.
    + injection Hrun as <- <-.
      by rewrite migrate_eip_file_eq, Hfile, migrate_data_dict, Hforks.
  - intros data' modified Hdata Hfault.
    rewrite migrate_eip_file_eq, Hfile, Hdata.
    destruct modified; [|by eexists]. rewrite Hfault by done. by eexists.
Qed.

Lemma migration_idempotent_witness :
  ∃ w1, migrate_eip_file "eip-7702.json"
          (Samples.on_disk "eip-7702.json" (Json Samples.included))
        = Returned true w1 ∧
        migrate_eip_file "eip-7702.json" w1 = Returned false w1.
Proof.
  destruct (migration_idempotent "eip-7702.json"
              (Samples.on_disk "eip-7702.json" (Json Samples.included))
              Samples.included) as [Hidem Hret].
  - vm_compute. reflexivity.
  - destruct (Hret (Samples.doc
                      [JDict [("statusHistory",
                               JList [JDict [("status", JStr "Included")]])]])
                   true) as [w1 Hw1].
    + reflexivity.
    + intros _. reflexivity.
    + exists w1. split; [exact Hw1|]. apply (Hidem true). exact Hw1.
Defined.

(** C3: status promotion.  An object entry whose [status] is a non-empty
    string and whose [statusHistory] is absent or the empty sequence comes
    out with [statusHistory] equal to [[{"status": <that string>}]] and
    without [status], and the document is marked changed: the call never
    returns [False] on it; it returns [True] with the new document stored,
    unless the write of line 57 raises. *)
Theorem status_promotion path w d forks i f s :
  disk w !! path = Some (Json (JDict d)) →
  Dict.lookup "forkRelationships" d = Some (JList forks) →
  forks !! i = Some (JDict f) →
  Dict.lookup "status" f = Some (JStr s) →
  s ≠ "" →
  Dict.lookup "statusHistory" f = None
  ∨ Dict.lookup "statusHistory" f = Some (JList []) →
  ∃ data' forks' f',
    migrate_data (JDict d) = inr (data', true) ∧
    forks_of data' = Some forks' ∧
    forks' !! i = Some (JDict f') ∧
    Dict.lookup "statusHistory" f'
    = Some (JList [JDict [("status", JStr s)]]) ∧
    Dict.lookup "status" f' = None ∧
    migrate_eip_file path w
    = match write_fault w path data' with
      | None => Returned true (stored path data' w)
      | Some ft => Raised (exn_of ft) (failed ft path data' w)
      end.
Proof.
  intros Hfile Hforks%get_list_lookup Hi Hst Hs Hhist.
  assert (existsb string_status forks = true) as Hex.
  { apply existsb_string_status. exists f, s.
    split; [by eapply list_elem_of_lookup_2|done]. }
  assert (existing_history f = JList []) as Hexisting.
  { destruct Hhist; [by apply existing_history_absent
                    |by apply existing_history_list]. }
  assert (truthy (JStr s) = true) as Htruthy.
  { simpl. apply negb_true_iff. by destruct (String.eqb_spec s ""). }
  do 3 eexists. split_and!.
  - rewrite (migrate_data_forks _ _ Hforks), Hex. reflexivity.
  - apply forks_of_set.
  - rewrite lookup_new_entries, Hi. simpl.
    by rewrite (new_entry_string_status _ _ Hst).
  - rewrite Hexisting, Htruthy. simpl.
    by rewrite lookup_pop_ne, lookup_set_eq.
  - apply lookup_pop_eq.
  - by rewrite migrate_eip_file_eq, Hfile, (migrate_data_forks _ _ Hforks),
      Hex.
Qed.

Lemma status_promotion_witness :
  ∃ data' forks' f',
    migrate_data Samples.included = inr (data', true) ∧
    forks_of data' = Some forks' ∧
    forks' !! 0 = Some (JDict f') ∧
    Dict.lookup "statusHistory" f'
    = Some (JList [JDict [("status", JStr "Included")]]) ∧
    Dict.lookup "status" f' = None.
Proof.
  destruct (status_promotion "eip-7702.json"
              (Samples.on_disk "eip-7702.json" (Json Samples.included))
              [("forkRelationships",
                JList [JDict [("status", JStr "Included")]])]
              [JDict [("status", JStr "Included")]] 0
              [("status", JStr "Included")] "Included")
    as (data' & forks' & f' & Hdata & Hforks & Hf' & Hhist & Hst & _).
  - vm_compute. reflexivity.
  - reflexivity.
  - reflexivity.
  - reflexivity.
  - discriminate.
  - left. reflexivity.
  - exists data', forks', f'. repeat split; assumption.
Defined.

(** C4: an existing history is preserved.  An object entry whose [status]
    is a string and whose [statusHistory] is a non-empty sequence comes out
    with that same [statusHistory] and without [status], and the document
    is marked changed: the call never returns [False] on it; it returns
    [True] with the new document stored, unless the write of line 57
    raises. *)
Theorem existing_history_preserved path w d forks i f s h hs :
  disk w !! path = Some (Json (JDict d)) →
  Dict.lookup "forkRelationships" d = Some (JList forks) →
  forks !! i = Some (JDict f) →
  Dict.lookup "status" f = Some (JStr s) →
  Dict.lookup "statusHistory" f = Some (JList (h :: hs)) →
  ∃ data' forks' f',
    migrate_data (JDict d) = inr (data', true) ∧
    forks_of data' = Some forks' ∧
    forks' !! i = Some (JDict f') ∧
    Dict.lookup "statusHistory" f' = Some (JList (h :: hs)) ∧
    Dict.lookup "status" f' = None ∧
    migrate_eip_file path w
    = match write_fault w path data' with
      | None => Returned true (stored path data' w)
      | Some ft => Raised (exn_of ft) (failed ft path data' w)
      end.
Proof.
  intros Hfile Hforks%get_list_lookup Hi Hst Hhist.
  assert (existsb string_status forks = true) as Hex.
  { apply existsb_string_status. exists f, s.
    split; [by eapply list_elem_of_lookup_2|done]. }
  apply existing_history_list in Hhist as Hexisting.
  do 3 eexists. split_and!.
  - rewrite (migrate_data_forks _ _ Hforks), Hex. reflexivity.
  - apply forks_of_set.
  - rewrite lookup_new_entries, Hi. simpl.
    by rewrite (new_entry_string_status _ _ Hst).
  - rewrite Hexisting. simpl. rewrite andb_false_r.
    by rewrite lookup_pop_ne, lookup_set_eq.
  - apply lookup_pop_eq.
  - by rewrite migrate_eip_file_eq, Hfile, (migrate_data_forks _ _ Hforks),
      Hex.
Qed.

Lemma existing_history_preserved_witness :
  ∃ data' forks' f',
    migrate_data Samples.draft_final = inr (data', true) ∧
    forks_of data' = Some forks' ∧
    forks' !! 0 = Some (JDict f') ∧
    Dict.lookup "statusHistory" f'
    = Some (JList [JDict [("status", JStr "Final")]]) ∧
    Dict.lookup "status" f' = None.
Proof.
  destruct (existing_history_preserved "eip-4844.json"
              (Samples.on_disk "eip-4844.json" (Json Samples.draft_final))
              [("forkRelationships",
                JList [JDict [("status", JStr "Draft");
                              ("statusHistory",
                               JList [JDict [("status", JStr "Final")]])]])]
              [JDict [("status", JStr "Draft");
                      ("statusHistory",
                       JList [JDict [("status", JStr "Final")]])]] 0
              [("status", JStr "Draft");
               ("statusHistory", JList [JDict [("status", JStr "Final")]])]
              "Draft" (JDict [("status", JStr "Final")]) [])
    as (data' & forks' & f' & Hdata & Hforks & Hf' & Hhist & Hst & _).
  - vm_compute. reflexivity.
  - reflexivity.
  - reflexivity.
  - reflexivity.
  - reflexivity.
  - exists data', forks', f'. repeat split; assumption.
Defined.




(** C6, as stated, fails: a [statusHistory] that is not a sequence but
    counts as true in Python is used as the existing history.  The string
    ["abc"] and the number [7] are kept, and with ["abc"] in place the
    string [status] of the entry is dropped without being promoted. *)
Lemma text_history_is_used :
  existing_history [("statusHistory", JStr "abc")] = JStr "abc" ∧
  existing_history [("statusHistory", JInt 7)] = JInt 7 ∧
  migrate_data
    (Samples.doc [JDict [("status", JStr "Final");
                         ("statusHistory", JStr "abc")]])
  = inr (Samples.doc [JDict [("statusHistory", JStr "abc")]], true) ∧
  migrate_data Samples.text_history = inr (Samples.text_history, false).
Proof. done. Qed.

(** C6, amended: the existing history is the entry's [statusHistory] when
    that value is a sequence, and also when it is any other value that
    Python counts as true (a non-empty string, a number other than zero,
    [true], a non-empty object); it is the empty sequence when
    [statusHistory] is absent, [null], [false], zero, the empty string or
    the empty object.  An entry without a string [status] comes out with
    the existing history under [statusHistory]. *)
Theorem existing_history_cases f :
  (∀ items, Dict.lookup "statusHistory" f = Some (JList items) →
     existing_history f = JList items) ∧
  (Dict.lookup "statusHistory" f = None
   ∨ Dict.lookup "statusHistory" f = Some JNull →
     existing_history f = JList []) ∧
  (∀ s, Dict.lookup "statusHistory" f = Some (JStr s) →
     existing_history f = if decide (s = "") then JList [] else JStr s) ∧
  (∀ n, Dict.lookup "statusHistory" f = Some (JInt n) →
     existing_history f = if decide (n = 0%Z) then JList [] else JInt n) ∧
  (∀ x, Dict.lookup "statusHistory" f = Some (JFloat x) →
     existing_history f
     = match x with S754_zero _ => JList [] | _ => JFloat x end) ∧
  (∀ b, Dict.lookup "statusHistory" f = Some (JBool b) →
     existing_history f = if b then JBool true else JList []) ∧
  (∀ o, Dict.lookup "statusHistory" f = Some (JDict o) →
     existing_history f = match o with [] => JList [] | _ => JDict o end) ∧
  (is_str (Dict.get f "status") = false →
     ∃ f', new_entry (JDict f) = JDict f' ∧
           Dict.lookup "statusHistory" f' = Some (existing_history f)).
Proof.
  unfold existing_history, Dict.get. split_and!.
  - intros items ->. by destruct items.
  - by intros [-> | ->].
  - intros s ->. unfold py_or. simpl.
    case_decide as Hs; [by subst|]. by destruct (String.eqb_spec s "").
  - intros n ->. unfold py_or. simpl.
    case_decide as Hn; [by subst|]. by destruct (Z.eqb_spec n 0).
  - intros x ->. by destruct x.
  - intros b ->. by destruct b.
  - intros o ->. by destruct o.
  - intros Hst. rewrite (new_entry_no_string_status _ Hst).
    eexists. split; [done|]. by rewrite lookup_set_eq.
Qed.

(** C7: no-op without a [forkRelationships] array.  When the document's
    [forkRelationships] is missing, [null] or any value that is not an
    array, the document in memory is the one that was read, the run
    returns [False], and the directory and the trace are left as they were:
    nothing is written. *)
Theorem no_fork_relationships_noop path w d :
  disk w !! path = Some (Json (JDict d)) →
  is_list (Dict.get d "forkRelationships") = false →
  migrate_data (JDict d) = inr (JDict d, false) ∧
  migrate_eip_file path w = Returned false w.
Proof.
  intros Hfile Hforks.
  rewrite migrate_eip_file_eq, Hfile.
  by rewrite (migrate_data_no_forks _ Hforks).
Qed.

(** The three cases of the hypothesis of C7. *)
Lemma no_array_cases d :
  is_list (Dict.get d "forkRelationships") = false
  ↔ Dict.lookup "forkRelationships" d = None
    ∨ Dict.lookup "forkRelationships" d = Some JNull
    ∨ ∃ v, Dict.lookup "forkRelationships" d = Some v ∧ is_list v = false.
Proof.
  unfold Dict.get. destruct (Dict.lookup "forkRelationships" d) as [v|];
    simpl; [|by split; auto].
  split; [intros; right; right; by exists v|].
  intros [?|[[= ->]|(? & [= <-] & ?)]]; done.
Qed.

Lemma no_fork_relationships_noop_witness :
  let w := Samples.on_disk "eip-1.json" (Json Samples.no_forks) in
  migrate_data Samples.no_forks = inr (Samples.no_forks, false) ∧
  migrate_eip_file "eip-1.json" w = Returned false w.
Proof.
  apply (no_fork_relationships_noop "eip-1.json"
           (Samples.on_disk "eip-1.json" (Json Samples.no_forks))
           [("id", JInt 1)]).
  - vm_compute. reflexivity.
  - reflexivity.
Defined.

(** C8: an empty [status] is ignored.  For
    [{"forkRelationships":[{"status":""}]}] the output is
    [{"forkRelationships":[{"statusHistory":[]}]}], the document is marked
    changed and that output is written. *)
Theorem empty_status_ignored :
  let out := JDict [("forkRelationships",
                     JList [JDict [("statusHistory", JList [])]])] in
  migrate_data
    (JDict [("forkRelationships", JList [JDict [("status", JStr "")]])])
  = inr (out, true) ∧
  migrate_eip_file "eip-7702.json"
    (Samples.on_disk "eip-7702.json" (Json Samples.empty_status))
  = Returned true (World Samples.no_faults {[ "eip-7702.json" := Json out ]}
                         [WriteText "eip-7702.json" out]).
Proof.
  cbv zeta. split; [done|]. rewrite migrate_eip_file_eq. by vm_compute.
Qed.

(** C10: the flag.  The flag [modified] of lines 31 to 54 is [True]
    exactly when [forkRelationships] is an array with an object element
    whose [status] is a string, and a call that returns, returns that flag:
    [True] exactly when the file parses to such a document.  On such a
    document the call never returns [False]: it returns [True], unless
    the write of line 57 raises.  A call that returns [False] leaves the
    directory as it was and writes nothing, so adding missing
    [statusHistory] keys alone never reaches the disk; a call that returns
    [True] writes the file once. *)
Theorem changed_iff_string_status path w :
  (∀ d data' modified,
     migrate_data (JDict d) = inr (data', modified) →
     (modified = true
      ↔ ∃ forks f s,
          Dict.lookup "forkRelationships" d = Some (JList forks) ∧
          JDict f ∈ forks ∧
          Dict.lookup "status" f = Some (JStr s))) ∧
  (∀ changed w',
     migrate_eip_file path w = Returned changed w' →
     (changed = true
      ↔ ∃ d forks f s,
          disk w !! path = Some (Json (JDict d)) ∧
          Dict.lookup "forkRelationships" d = Some (JList forks) ∧
          JDict f ∈ forks ∧
          Dict.lookup "status" f = Some (JStr s))) ∧
  (∀ d forks f s,
     disk w !! path = Some (Json (JDict d)) →
     Dict.lookup "forkRelationships" d = Some (JList forks) →
     JDict f ∈ forks →
     Dict.lookup "status" f = Some (JStr s) →
     ∃ data',
       migrate_data (JDict d) = inr (data', true) ∧
       migrate_eip_file path w
       = match write_fault w path data' with
         | None => Returned true (stored path data' w)
         | Some ft => Raised (exn_of ft) (failed ft path data' w)
         end) ∧
  (∀ w', migrate_eip_file path w = Returned false w' →
     disk w' = disk w ∧
     ∀ name data, WriteText name data ∈ trace w' →
                  WriteText name data ∈ trace w) ∧
  (∀ w', migrate_eip_file path w = Returned true w' →
     ∃ data', disk w' = <[path := Json data']> (disk w) ∧
              trace w' = trace w ++ [WriteText path data']).
Proof.
  assert (∀ d data' modified,
     migrate_data (JDict d) = inr (data', modified) →
     (modified = true
      ↔ ∃ forks f s,
          Dict.lookup "forkRelationships" d = Some (JList forks) ∧
          JDict f ∈ forks ∧
          Dict.lookup "status" f = Some (JStr s))) as Hflag.
  { intros d data' modified. rewrite migrate_data_dict.
    destruct (forks_of (JDict d)) as [forks|] eqn:Hforks; intros [= <- <-].
    - apply forks_of_Some in Hforks as (? & [= <-] & Hforks%get_list_lookup).
      rewrite existsb_string_status. split.
      + intros (f & s & ? & ?). by exists forks, f, s.
      + intros (forks' & f & s & Hforks' & ? & ?).
        rewrite Hforks in Hforks'. injection Hforks' as <-. by exists f, s.
    - split; [done|]. intros (forks & f & s & Hget%get_list_lookup & _).
      apply forks_of_None in Hforks. by rewrite Hget in Hforks. }
  split_and!.
  - exact Hflag.
  - intros changed w'. rewrite migrate_eip_file_eq.
    destruct (disk w !! path) as [[data|]|];
      [|intros [= <- <-]; split; [done|by intros (?&?&?&?&?&?)]..].
    destruct (migrate_data data) as [e|[data' modified]] eqn:Hdata; [done|].
    destruct data as [| | | | | |d]; try done.
    specialize (Hflag d data' modified Hdata).
    assert (changed = modified → changed = true ↔
      ∃ d0 forks f s, Some (Json (JDict d)) = Some (Json (JDict d0)) ∧
        Dict.lookup "forkRelationships" d0 = Some (JList forks) ∧
        JDict f ∈ forks ∧ Dict.lookup "status" f = Some (JStr s)) as Hiff.
    { intros ->. rewrite Hflag. split.
      - intros (forks & f & s & ?). by exists d, forks, f, s.
      - intros (d0 & forks & f & s & [= <-] & ?). by exists forks, f, s. }
    destruct modified.
    + destruct (write_fault w path data'); [done|].
      intros [= <- <-]. by apply Hiff.
    + intros [= <- <-]. by apply Hiff.
  - intros d forks f s Hfile Hforks%get_list_lookup Hin Hst.
    rewrite migrate_eip_file_eq, Hfile, (migrate_data_forks _ _ Hforks).
    assert (existsb string_status forks = true) as ->; [|by eexists].
    apply existsb_string_status. by exists f, s.
  - intros w' Hrun. rewrite migrate_eip_file_eq in Hrun.
    destruct (disk w !! path) as [[data|]|].
    + destruct (migrate_data data) as [e|[data' [|]]]; try done.
      * by destruct (write_fault w path data').
      * by injection Hrun as <-.
    + injection Hrun as <-. simpl. split; [done|].
      intros name data [?|[=]%list_elem_of_singleton]%elem_of_app. done.
    + injection Hrun as <-. simpl. split; [done|].
      intros name data [?|[=]%list_elem_of_singleton]%elem_of_app. done.
  - intros w' Hrun. rewrite migrate_eip_file_eq in Hrun.
    destruct (disk w !! path) as [[data|]|]; try done.
    destruct (migrate_data data) as [e|[data' [|]]]; try done.
    destruct (write_fault w path data'); [done|].
    injection Hrun as <-. by exists data'.
Qed.

(** ** The batch *)

Section Batch.

Implicit Types (path : string) (files : list string) (w : world).

Lemma migrate_files_cons path files migrated w :
  migrate_files (path :: files) migrated w
  = match migrate_eip_file path w with
    | Returned true w' =>
        migrate_files files (migrated + 1)
          (World (faults w') (disk w')
                 (trace w' ++ [Print (MigratedFile path)]))
    | Returned false w' => migrate_files files migrated w'
    | Raised e w' => Raised e w'
    end.
Proof.
  simpl. unfold bind at 1.
  destruct (migrate_eip_file path w) as [[|] w'|e w']; done.
Qed.

Lemma migrate_files_app before rest migrated w :
  migrate_files (before ++ rest) migrated w
  = match migrate_files before migrated w with
    | Returned migrated' w' => migrate_files rest migrated' w'
    | Raised e w' => Raised e w'
    end.
Proof.
  revert migrated w.
  induction before as [|path before IH]; intros migrated w; [done|].
  rewrite <-app_comm_cons, !migrate_files_cons.
  destruct (migrate_eip_file path w) as [[|] w'|e w']; by rewrite ?IH.
Qed.

Lemma main_eq files w :
  main (Some files) w
  = match migrate_files files 0
            (World (faults w) (disk w)
                   (trace w ++ [Print (Found (length files))])) with
    | Returned migrated w' =>
        Returned ()
          (World (faults w') (disk w')
                 (trace w' ++ summary (Z.of_nat (length files)) migrated))
    | Raised e w' => Raised e w'
    end.
Proof.
  unfold main, bind, print. simpl.
  destruct (migrate_files files 0 _) as [migrated w'|e w']; [|done].
  simpl. by rewrite <-!app_assoc.
Qed.



(** A call that returns leaves its file settled and no file unsettled. *)
Lemma migrate_eip_file_settles path w changed w' :
  migrate_eip_file path w = Returned changed w' →
  settled (disk w' !! path) = true ∧
  ∀ q, settled (disk w !! q) = true → settled (disk w' !! q) = true.
Proof.
  rewrite migrate_eip_file_eq.
  destruct (disk w !! path) as [[data|]|] eqn:Hfile;
    [|intros [= <- <-]; simpl; by rewrite Hfile..].
  destruct data as [| | | | | |d]; try done.
  rewrite migrate_data_dict.
  destruct (forks_of (JDict d)) as [forks|] eqn:Hforks.
  2:{ intros [= <- <-]. rewrite Hfile. unfold settled. by rewrite Hforks. }
  destruct (existsb string_status forks) eqn:Hex.
  2:{ intros [= <- <-]. rewrite Hfile. unfold settled.
      by rewrite Hforks, Hex. }
  destruct (write_fault w path _); [done|]. intros [= <- <-].
  assert (settled (Some (Json (JDict (Dict.set "forkRelationships"
            (JList (new_entry <$> forks)) d)))) = true) as Hnew.
  { unfold settled.
    by rewrite forks_of_set, existsb_string_status_new_entry. }
  simpl. rewrite lookup_insert_eq. split; [done|].
  intros q Hq. destruct (decide (q = path)) as [->|Hne].
  - by rewrite lookup_insert_eq.
  - by rewrite lookup_insert_ne.
Qed.

(** On a settled file the call returns [False] and writes nothing. *)
Lemma migrate_eip_file_settled path w :
  settled (disk w !! path) = true →
  ∃ tr, migrate_eip_file path w
        = Returned false (World (faults w) (disk w) (trace w ++ tr)) ∧
        (tr = [] ∨ tr = [Print (ErrorReading path)]).
Proof.
  intros Hs. rewrite migrate_eip_file_eq.
  destruct (disk w !! path) as [[data|]|];
    [|exists [Print (ErrorReading path)]; by auto..].
  simpl in Hs. apply andb_true_iff in Hs as [Hdict Hforks].
  destruct data as [| | | | | |d]; try done.
  rewrite migrate_data_dict. exists [].
  rewrite app_nil_r. split; [|by left].
  destruct (forks_of (JDict d)) as [forks|].
  - apply negb_true_iff in Hforks. rewrite Hforks. by destruct w.
  - by destruct w.
Qed.



Lemma migrate_files_settles files migrated w migrated' w' :
  migrate_files files migrated w = Returned migrated' w' →
  (∀ q, settled (disk w !! q) = true → settled (disk w' !! q) = true) ∧
  ∀ path, path ∈ files → settled (disk w' !! path) = true.
Proof.
  revert migrated w. induction files as [|q files IH]; intros migrated w.
  { intros [= <- <-]. split; [done|]. by intros ? ?%elem_of_nil. }
  rewrite migrate_files_cons.
  destruct (migrate_eip_file q w) as [changed w0|e w0] eqn:Hq;
    [|by destruct e].
  apply migrate_eip_file_settles in Hq as [Hq Hkeep0].
  assert (∀ m w1, disk w1 = disk w0 →
            migrate_files files m w1 = Returned migrated' w' →
            (∀ p, settled (disk w !! p) = true →
                  settled (disk w' !! p) = true) ∧
            ∀ path, path ∈ q :: files → settled (disk w' !! path) = true)
    as Hrest.
  { intros m w1 Hdisk [Hkeep Hall]%IH. rewrite Hdisk in Hkeep.
    split; [by auto|].
    intros path [->|Hin]%elem_of_cons; [by apply Hkeep|by apply Hall]. }
  destruct changed; by apply Hrest.
Qed.



End Batch.



(** The run of the witness, line by line. *)
Example run_with_malformed_file :
  let out := Samples.doc
               [JDict [("statusHistory",
                        JList [JDict [("status", JStr "Included")]])]] in
  main (Some ["bad.json"; "eip-7702.json"])
       (World Samples.no_faults {[ "bad.json" := Malformed;
                 "eip-7702.json" := Json Samples.included ]} [])
  = Returned ()
      (World Samples.no_faults
             {[ "bad.json" := Malformed; "eip-7702.json" := Json out ]}
             ([Print (Found 2);
               Print (ErrorReading "bad.json");
               WriteText "eip-7702.json" out;
               Print (MigratedFile "eip-7702.json")]
              ++ summary 2 1)).
Proof. by vm_compute. Qed.

(** A document that is not an object stops the batch: [data.get] raises
    and nothing catches it. *)
Example run_with_toplevel_list :
  ∃ w', main (Some ["eip-1.json"; "eip-7702.json"])
             (World Samples.no_faults {[ "eip-1.json" := Json (JList []);
                       "eip-7702.json" := Json Samples.included ]} [])
        = Raised AttributeError w'.
Proof. eexists. by vm_compute. Qed.

(** Without the data directory [main] exits. *)
Example run_without_directory w : main None w = Raised SystemExit w.
Proof. done. Qed.

(** A lone surrogate in a document marked changed: line 57 raises and
    leaves the file empty. *)
Example write_of_lone_surrogate :
  migrate_eip_file "eip-1.json"
    (Samples.on_disk "eip-1.json" (Json Samples.surrogate_note))
  = Raised UnicodeEncodeError
      (World Samples.no_faults {[ "eip-1.json" := Malformed ]}
             [Truncated "eip-1.json"]).
Proof. by vm_compute. Qed.

(** A file that cannot be opened for writing: line 57 raises and the file
    is as it was. *)
Example write_to_read_only_file :
  let w := World (λ _ _, Some OpenFails)
                 {[ "eip-7702.json" := Json Samples.included ]} [] in
  migrate_eip_file "eip-7702.json" w = Raised OSError w.
Proof. by vm_compute. Qed.


(** ** More on dictionaries *)

Section DictOrder.

Implicit Types (k : string) (v : json) (d : pydict).

Lemma lookup_Some_keys k v d : Dict.lookup k d = Some v → k ∈ keys d.
Proof.
  induction d as [|[k' v'] d IH]; [done|]. simpl.
  destruct (String.eqb_spec k k') as [->|Hne].
  - intros _. apply list_elem_of_here.
  - intros Hd. apply list_elem_of_further. by apply IH.
Qed.

Lemma lookup_None_keys k d : Dict.lookup k d = None ↔ k ∉ keys d.
Proof.
  induction d as [|[k' v'] d IH]; simpl.
  - split; [intros _; apply not_elem_of_nil|done].
  - rewrite not_elem_of_cons.
    destruct (String.eqb_spec k k') as [->|Hne]; [|by rewrite IH; tauto].
    split; [done|]. by intros [? _].
Qed.

(** Storing the value that is already there changes nothing. *)
Lemma set_same k v d : Dict.lookup k d = Some v → Dict.set k v d = d.
Proof.
  induction d as [|[k' v'] d IH]; [done|]. simpl.
  destruct (String.eqb_spec k k') as [->|Hne].
  - by intros [= ->].
  - intros Hd. by rewrite IH.
Qed.

(** The second of two stores under one key wins. *)
Lemma set_set k v v' d : Dict.set k v (Dict.set k v' d) = Dict.set k v d.
Proof.
  induction d as [|[k' v0] d IH]; simpl.
  - by rewrite String.eqb_refl.
  - destruct (String.eqb_spec k k') as [->|Hne]; simpl.
    + by rewrite String.eqb_refl.
    + destruct (String.eqb_spec k k'); [done|]. by rewrite IH.
Qed.

Lemma keys_set_present k v d : k ∈ keys d → keys (Dict.set k v d) = keys d.
Proof. intros Hin. rewrite keys_set. by rewrite bool_decide_eq_true_2. Qed.

Lemma keys_pop k d : keys (Dict.pop k d) = filter (λ k', k' ≠ k) (keys d).
Proof.
  induction d as [|[k' v'] d IH]; [done|].
  rewrite pop_cons. unfold keys in *. rewrite fmap_cons, filter_cons. simpl.
  destruct (String.eqb_spec k k') as [->|Hne].
  - by rewrite decide_False by auto.
  - rewrite decide_True by auto. by rewrite fmap_cons, IH.
Qed.

End DictOrder.

(** ** The shape of the migrated array and of its entries *)

Section Shape.

Implicit Types (f d : pydict) (forks : list json) (fork : json).

Lemma py_or_again v :
  py_or (py_or v (JList [])) (JList []) = py_or v (JList []).
Proof. unfold py_or. by destruct (truthy v) eqn:Hv; [rewrite Hv|]. Qed.

Lemma existing_history_again f h :
  Dict.lookup "statusHistory" f = Some (existing_history h) →
  existing_history f = existing_history h.
Proof.
  intros Hf. unfold existing_history at 1, Dict.get. rewrite Hf. simpl.
  apply py_or_again.
Qed.

Lemma existing_history_promoted f s :
  Dict.lookup "statusHistory" f = Some (JList [JDict [("status", JStr s)]]) →
  existing_history f = JList [JDict [("status", JStr s)]].
Proof. apply existing_history_list. Qed.

(** A second turn of the loop on a new entry gives it back. *)
Lemma new_entry_again fork : new_entry (new_entry fork) = new_entry fork.
Proof.
  destruct fork as [| | | | | |f]; try done.
  destruct (Dict.get f "status") as [| | | |s| |] eqn:Hst.
  5:{ apply get_str_lookup in Hst.
      rewrite (new_entry_string_status _ _ Hst).
      set (f1 := Dict.pop "status" _).
      assert (Dict.lookup "status" f1 = None) as Hst1
        by apply lookup_pop_eq.
      rewrite new_entry_no_string_status
        by (unfold Dict.get; by rewrite Hst1).
      f_equal. apply set_same. subst f1. rewrite lookup_pop_ne by done.
      destruct (truthy (JStr s) && negb (truthy (existing_history f)));
        rewrite lookup_set_eq; f_equal; symmetry.
      - apply existing_history_promoted.
        by rewrite lookup_pop_ne, lookup_set_eq.
      - apply existing_history_again.
        by rewrite lookup_pop_ne, lookup_set_eq. }
  all: rewrite (new_entry_no_string_status f) by (by rewrite Hst);
    set (f1 := Dict.set "statusHistory" _ f);
    assert (Dict.get f1 "status" = Dict.get f "status") as Hst1
      by (unfold Dict.get, f1; by rewrite lookup_set_ne);
    assert (Dict.lookup "statusHistory" f1 = Some (existing_history f))
      as Hhist by apply lookup_set_eq;
    rewrite new_entry_no_string_status by (by rewrite Hst1, Hst);
    rewrite (existing_history_again _ _ Hhist);
    f_equal; by apply set_same.
Qed.

Lemma new_entries_again forks :
  new_entry <$> (new_entry <$> forks) = new_entry <$> forks.
Proof.
  rewrite <-list_fmap_compose. apply list_fmap_ext.
  intros i fork _. apply new_entry_again.
Qed.

Lemma new_entries_not_dict forks :
  Forall (λ fork, is_dict fork = false) forks → new_entry <$> forks = forks.
Proof.
  induction 1 as [|fork forks Hfork _ IH]; csimpl; [done|].
  by rewrite IH, new_entry_not_dict.
Qed.

Lemma existsb_string_status_not_dict forks :
  Forall (λ fork, is_dict fork = false) forks →
  existsb string_status forks = false.
Proof.
  induction 1 as [|fork forks Hfork _ IH]; simpl; [done|].
  rewrite IH. by destruct fork.
Qed.

Lemma new_entry_keys f :
  ∃ f', new_entry (JDict f) = JDict f' ∧
        keys f'
        = let ks := if bool_decide ("statusHistory" ∈ keys f) then keys f
                    else keys f ++ ["statusHistory"] in
          if is_str (Dict.get f "status")
          then filter (λ k, k ≠ "status") ks else ks.
Proof.
  assert (∀ v v', keys (Dict.set "statusHistory" v
                          (Dict.set "statusHistory" v' f))
                  = keys (Dict.set "statusHistory" v' f)) as Hagain.
  { intros v v'. apply keys_set_present.
    eapply lookup_Some_keys, lookup_set_eq. }
  destruct (Dict.get f "status") as [| | | |s| |] eqn:Hst.
  5:{ apply get_str_lookup in Hst.
      rewrite (new_entry_string_status _ _ Hst). eexists. split; [done|].
      rewrite keys_pop. cbn [is_str]. cbv zeta. f_equal.
      destruct (truthy (JStr s) && negb (truthy (existing_history f)));
        rewrite ?Hagain; apply keys_set. }
  all: rewrite new_entry_no_string_status by (by rewrite Hst);
    eexists; (split; [done|]); apply keys_set.
Qed.

End Shape.

(** ** Further properties of the rewrite of a document *)

(** X1: the array keeps its length and its order; an element that is not an
    object stays where it is, as it is; an object stays an object; an array
    without objects comes back equal and does not mark the document
    changed. *)
Theorem array_shape_preserved d forks :
  Dict.lookup "forkRelationships" d = Some (JList forks) →
  ∃ data' forks' modified,
    migrate_data (JDict d) = inr (data', modified) ∧
    forks_of data' = Some forks' ∧
    length forks' = length forks ∧
    (∀ i fork, forks !! i = Some fork → is_dict fork = false →
       forks' !! i = Some fork) ∧
    (∀ i fork, forks !! i = Some fork → is_dict fork = true →
       ∃ f', forks' !! i = Some (JDict f')) ∧
    (Forall (λ fork, is_dict fork = false) forks →
       forks' = forks ∧ modified = false).
Proof.
  intros Hforks%get_list_lookup.
  eexists _, (new_entry <$> forks), _.
  split_and!; [by apply migrate_data_forks|apply forks_of_set
              |apply length_fmap|..].
  - intros i fork Hi Hfork. rewrite lookup_new_entries, Hi. simpl.
    by rewrite new_entry_not_dict.
  - intros i fork Hi Hfork. rewrite lookup_new_entries, Hi. simpl.
    pose proof (new_entry_is_dict fork) as Hnew. rewrite Hfork in Hnew.
    destruct (new_entry fork) as [| | | | | |f']; try done. by exists f'.
  - intros Hnone. split; [by apply new_entries_not_dict
                         |by apply existsb_string_status_not_dict].
Qed.

Lemma array_shape_preserved_witness :
  ∃ data' forks' modified,
    migrate_data Samples.mixed = inr (data', modified) ∧
    forks_of data' = Some forks' ∧
    length forks' = 3 ∧
    forks' !! 0 = Some JNull ∧
    forks' !! 1 = Some (JStr "x").
Proof.
  destruct (array_shape_preserved
              [("forkRelationships",
                JList [JNull; JStr "x"; JDict [("status", JStr "A")]])]
              [JNull; JStr "x"; JDict [("status", JStr "A")]])
    as (data' & forks' & modified & Hdata & Hforks & Hlen & Hkeep & _ & _).
  - reflexivity.
  - exists data', forks', modified.
    split_and!; [exact Hdata|exact Hforks|exact Hlen|..].
    + apply (Hkeep 0 JNull); reflexivity.
    + apply (Hkeep 1 (JStr "x")); reflexivity.
Defined.

(** X2: the keys of an output entry, in order: the keys of the input entry
    in their order, [statusHistory] where it was or last when it was
    missing, and [status] taken out when its value was a string. *)
Theorem entry_key_order f modified :
  ∃ f', (migrate_fork (JDict f) modified).1 = JDict f' ∧
        keys f'
        = let ks := if bool_decide ("statusHistory" ∈ keys f) then keys f
                    else keys f ++ ["statusHistory"] in
          if is_str (Dict.get f "status")
          then filter (λ k, k ≠ "status") ks else ks.
Proof. rewrite migrate_fork_split. apply new_entry_keys. Qed.

(** X3: every field of an entry other than [status] and [statusHistory] is
    copied with its value. *)
Theorem entry_other_fields_kept f k modified :
  k ≠ "status" → k ≠ "statusHistory" →
  ∃ f', (migrate_fork (JDict f) modified).1 = JDict f' ∧
        Dict.lookup k f' = Dict.lookup k f.
Proof.
  intros Hk1 Hk2. rewrite migrate_fork_split. by apply new_entry_other.
Qed.

Lemma entry_other_fields_kept_witness :
  ∃ f', (migrate_fork
           (JDict [("forkName", JStr "Pectra"); ("status", JStr "Included")])
           false).1 = JDict f' ∧
        Dict.lookup "forkName" f' = Some (JStr "Pectra").
Proof.
  apply (entry_other_fields_kept
           [("forkName", JStr "Pectra"); ("status", JStr "Included")]
           "forkName" false); discriminate.
Defined.

(** X4: keys stay distinct.  A document whose keys are distinct comes out
    with distinct keys, and so does every entry of its array. *)
Theorem unique_keys_preserved d data' modified :
  NoDup (keys d) →
  migrate_data (JDict d) = inr (data', modified) →
  ∃ d', data' = JDict d' ∧ NoDup (keys d') ∧
    ∀ forks forks' i f f',
      forks_of (JDict d) = Some forks → forks_of data' = Some forks' →
      forks !! i = Some (JDict f) → forks' !! i = Some (JDict f') →
      NoDup (keys f) → NoDup (keys f').
Proof.
  intros Hd. rewrite migrate_data_dict.
  destruct (forks_of (JDict d)) as [forks0|] eqn:Hforks0; intros [= <- <-].
  2:{ exists d. split_and!; [done..|]. intros ?????. by rewrite Hforks0. }
  eexists. split_and!; [done|by apply NoDup_keys_set|].
  intros forks forks' i f f' [= <-]. rewrite forks_of_set. intros [= <-] Hi.
  rewrite lookup_new_entries, Hi. simpl. intros [= Hnew] Hf.
  unfold new_entry in Hnew. simpl in Hnew.
  destruct (Dict.get f "status"); simpl in Hnew; injection Hnew as <-;
    try by apply NoDup_keys_set.
  apply NoDup_keys_pop. case_match; by repeat apply NoDup_keys_set.
Qed.

Lemma unique_keys_preserved_witness :
  ∃ d', migrate_data Samples.draft_final
        = inr (JDict d', true) ∧ NoDup (keys d').
Proof.
  destruct (unique_keys_preserved
              [("forkRelationships",
                JList [JDict [("status", JStr "Draft");
                              ("statusHistory",
                               JList [JDict [("status", JStr "Final")]])]])]
              (Samples.doc
                 [JDict [("statusHistory",
                          JList [JDict [("status", JStr "Final")]])]])
              true) as (d' & Hd' & Hkeys & _).
  - apply NoDup_singleton.
  - reflexivity.
  - exists d'. split; [|exact Hkeys]. rewrite <-Hd'. reflexivity.
Defined.

(** X5: the rest of the document is left alone: the top-level keys and
    their order are kept, and every field other than [forkRelationships]
    keeps its value. *)
Theorem document_other_fields_kept d data' modified :
  migrate_data (JDict d) = inr (data', modified) →
  ∃ d', data' = JDict d' ∧ keys d' = keys d ∧
        ∀ k, k ≠ "forkRelationships" → Dict.lookup k d' = Dict.lookup k d.
Proof.
  rewrite migrate_data_dict.
  destruct (forks_of (JDict d)) as [forks|] eqn:Hforks; intros [= <- <-].
  2:{ by exists d. }
  apply forks_of_Some in Hforks as (? & [= <-] & Hget%get_list_lookup).
  eexists. split_and!; [done| |].
  - apply keys_set_present. by eapply lookup_Some_keys.
  - intros k Hk. by apply lookup_set_ne.
Qed.

Lemma document_other_fields_kept_witness :
  ∃ d', migrate_data
          (JDict [("id", JInt 7702);
                  ("forkRelationships", JList [JDict [("status", JStr "A")]]);
                  ("title", JStr "Set code")])
        = inr (JDict d', true) ∧
        keys d' = ["id"; "forkRelationships"; "title"] ∧
        Dict.lookup "title" d' = Some (JStr "Set code").
Proof.
  destruct (document_other_fields_kept
              [("id", JInt 7702);
               ("forkRelationships", JList [JDict [("status", JStr "A")]]);
               ("title", JStr "Set code")]
              (JDict [("id", JInt 7702);
                      ("forkRelationships",
                       JList [JDict [("statusHistory",
                                      JList [JDict [("status", JStr "A")]])]]);
                      ("title", JStr "Set code")])
              true) as (d' & Hd' & Hkeys & Hother).
  - reflexivity.
  - exists d'. split_and!.
    + rewrite <-Hd'. reflexivity.
    + exact Hkeys.
    + apply (Hother "title"). discriminate.
Defined.

(** X6: the [statusHistory] of an output entry is the one-element history
    made of the old [status] exactly when [status] is a non-empty string
    and the existing history counts as false; in every other case it is the
    existing history.  The flag is the incoming flag or the test of line
    44: it is never reset. *)
Theorem output_status_history f modified :
  ∃ f', migrate_fork (JDict f) modified
        = (JDict f', modified || is_str (Dict.get f "status")) ∧
        Dict.lookup "statusHistory" f'
        = Some (match Dict.get f "status" with
                | JStr s =>
                    if bool_decide (s ≠ "")
                       && negb (truthy (existing_history f))
                    then JList [JDict [("status", JStr s)]]
                    else existing_history f
                | _ => existing_history f
                end).
Proof.
  rewrite migrate_fork_split. simpl.
  destruct (Dict.get f "status") as [| | | |s| |] eqn:Hst.
  5:{ apply get_str_lookup in Hst.
      rewrite (new_entry_string_status _ _ Hst). eexists. split; [done|].
      rewrite lookup_pop_ne by done.
      assert (truthy (JStr s) = bool_decide (s ≠ "")) as ->.
      { simpl. destruct (String.eqb_spec s "") as [->|Hs]; [done|].
        symmetry. by apply bool_decide_eq_true_2. }
      case_match; by rewrite lookup_set_eq. }
  all: rewrite new_entry_no_string_status by (by rewrite Hst);
    eexists; (split; [done|]); by rewrite lookup_set_eq.
Qed.

(** X7: the migrated document is stable.  Running lines 31 to 54 on the
    document they produced gives the same document, unchanged. *)
Theorem migrated_document_is_stable data data' modified :
  migrate_data data = inr (data', modified) →
  migrate_data data' = inr (data', false).
Proof.
  destruct data as [| | | | | |d]; try done.
  rewrite migrate_data_dict.
  destruct (forks_of (JDict d)) as [forks|] eqn:Hforks; intros [= <- <-].
  - rewrite migrate_data_dict, forks_of_set.
    by rewrite new_entries_again, existsb_string_status_new_entry, set_set.
  - by rewrite migrate_data_dict, Hforks.
Qed.

Lemma migrated_document_is_stable_witness :
  ∃ data', migrate_data Samples.mixed = inr (data', true) ∧
           migrate_data data' = inr (data', false).
Proof.
  eexists. split; [reflexivity|].
  apply (migrated_document_is_stable Samples.mixed _ true). reflexivity.
Defined.

(** ** Further properties of the files and of the batch *)

Section Runs.

Implicit Types (path : string) (files : list string) (w : world).

Lemma world_eta w : World (faults w) (disk w) (trace w) = w.
Proof. by destruct w. Qed.

Lemma written_app tr1 tr2 : written (tr1 ++ tr2) = written tr1 ++ written tr2.
Proof. apply omap_app. Qed.

Lemma announced_app tr1 tr2 :
  announced (tr1 ++ tr2) = announced tr1 ++ announced tr2.
Proof. apply omap_app. Qed.

(** What a failed write adds to the trace, and where it touches the
    disk. *)
Lemma failed_trace ft path data w :
  ∃ tr, trace (failed ft path data w) = trace w ++ tr ∧
        announced tr = [] ∧ written tr = [].
Proof.
  destruct ft as [| |cut]; simpl.
  - exists []. by rewrite app_nil_r.
  - by exists [Truncated path].
  - by exists [Truncated path].
Qed.

Lemma failed_disk ft path data w q :
  q ≠ path → disk (failed ft path data w) !! q = disk w !! q.
Proof.
  intros Hq. destruct ft as [| |cut]; simpl; [done|..];
    by rewrite lookup_insert_ne.
Qed.

(** What one call adds to the trace. *)
Lemma migrate_eip_file_trace path w :
  ∃ tr, trace (final_world (migrate_eip_file path w)) = trace w ++ tr ∧
        announced tr = [] ∧
        written tr
        = match migrate_eip_file path w with
          | Returned true _ => [path]
          | _ => []
          end.
Proof.
  rewrite migrate_eip_file_eq.
  destruct (disk w !! path) as [[data|]|];
    [|by exists [Print (ErrorReading path)]..].
  destruct (migrate_data data) as [e|[data' [|]]]; simpl.
  - exists []. by rewrite app_nil_r.
  - destruct (write_fault w path data') as [ft|]; simpl.
    + apply failed_trace.
    + by exists [WriteText path data'].
  - exists []. by rewrite app_nil_r.
Qed.

Lemma migrate_eip_file_disk path w q :
  q ≠ path →
  disk (final_world (migrate_eip_file path w)) !! q = disk w !! q.
Proof.
  intros Hq. rewrite migrate_eip_file_eq.
  destruct (disk w !! path) as [[data|]|]; try done.
  destruct (migrate_data data) as [e|[data' [|]]]; simpl; try done.
  destruct (write_fault w path data') as [ft|]; simpl.
  - by apply failed_disk.
  - by rewrite lookup_insert_ne.
Qed.


(** What the loop adds to the trace: one write and one announcement for
    each file counted, in the order of the files. *)
Lemma migrate_files_trace files migrated w migrated' w' :
  migrate_files files migrated w = Returned migrated' w' →
  ∃ tr, trace w' = trace w ++ tr ∧
        migrated' = (migrated + Z.of_nat (length (written tr)))%Z ∧
        announced tr = written tr ∧
        written tr `sublist_of` files.
Proof.
  revert migrated w. induction files as [|q files IH]; intros migrated w.
  { intros [= <- <-]. exists []. rewrite app_nil_r.
    split_and!; [done|simpl; lia|done|done]. }
  rewrite migrate_files_cons.
  destruct (migrate_eip_file_trace q w) as (tr0 & Htr0 & Hann0 & Hwr0).
  destruct (migrate_eip_file q w) as [[|] w0|e w0]; [| |done]; simpl in *.
  - intros (tr & Htr & -> & Hann & Hwr)%IH. simpl in Htr.
    exists (tr0 ++ [Print (MigratedFile q)] ++ tr).
    rewrite !written_app, !announced_app, Hann0, Hwr0, Hann. simpl.
    split_and!; [|lia|done|by apply sublist_skip].
    by rewrite Htr, Htr0, <-!app_assoc.
  - intros (tr & Htr & -> & Hann & Hwr)%IH.
    exists (tr0 ++ tr). rewrite !written_app, !announced_app, Hann0, Hwr0.
    split_and!; [|done|done|by apply sublist_cons].
    by rewrite Htr, Htr0, <-app_assoc.
Qed.

Lemma settled_spec (f : option file) :
  settled f = true
  ↔ ∀ data, f = Some (Json data) →
      is_dict data = true ∧
      ∀ forks, forks_of data = Some forks →
               ∀ fork, fork ∈ forks → string_status fork = false.
Proof.
  destruct f as [[data|]|]; simpl; [|done..].
  rewrite andb_true_iff. split.
  - intros [Hdict Hforks] ? [= <-]. split; [done|].
    intros forks Hf fork Hin. rewrite Hf in Hforks.
    apply negb_true_iff in Hforks. apply not_true_is_false. intros Hst.
    apply not_true_iff_false in Hforks. apply Hforks, existsb_exists.
    exists fork. by rewrite <-list_elem_of_In.
  - intros Hall. destruct (Hall data) as [Hdict Hforks]; [done|].
    split; [done|]. destruct (forks_of data) as [forks|]; [|done].
    apply negb_true_iff, not_true_is_false.
    intros (fork & Hin%list_elem_of_In & Hst)%existsb_exists.
    by rewrite (Hforks forks eq_refl fork Hin) in Hst.
Qed.

Lemma migrate_files_settled files migrated w :
  Forall (λ p, settled (disk w !! p) = true) files →
  ∃ tr, migrate_files files migrated w
        = Returned migrated (World (faults w) (disk w) (trace w ++ tr)) ∧
        written tr = [].
Proof.
  revert w. induction files as [|q files IH]; intros w Hall.
  { exists []. by rewrite app_nil_r, world_eta. }
  apply Forall_cons in Hall as [Hq Hall].
  destruct (migrate_eip_file_settled q w Hq) as (tr0 & Hrun & Htr0).
  rewrite migrate_files_cons, Hrun.
  destruct (IH (World (faults w) (disk w) (trace w ++ tr0)) Hall)
    as (tr & -> & Hwr).
  exists (tr0 ++ tr). simpl. rewrite written_app, Hwr, <-app_assoc.
  by destruct Htr0 as [-> | ->].
Qed.

End Runs.

(** X8: a call touches no file but its own.  Whether it returns or raises,
    every other file of the directory is as it was, the trace is only
    extended, and the only file it may have written is its own, once. *)
Theorem only_its_own_file path w q :
  q ≠ path →
  disk (final_world (migrate_eip_file path w)) !! q = disk w !! q ∧
  ∃ tr, trace (final_world (migrate_eip_file path w)) = trace w ++ tr ∧
        (written tr = [] ∨ written tr = [path]).
Proof.
  intros Hq. split; [by apply migrate_eip_file_disk|].
  destruct (migrate_eip_file_trace path w) as (tr & Htr & _ & Hwr).
  exists tr. split; [done|]. rewrite Hwr.
  destruct (migrate_eip_file path w) as [[|] ?|? ?]; auto.
Qed.

Lemma only_its_own_file_witness :
  let w := World Samples.no_faults {[ "eip-1.json" := Json Samples.bare;
                    "eip-7702.json" := Json Samples.included ]} [] in
  disk (final_world (migrate_eip_file "eip-7702.json" w)) !! "eip-1.json"
  = Some (Json Samples.bare).
Proof.
  cbv zeta.
  destruct (only_its_own_file "eip-7702.json"
              (World Samples.no_faults {[ "eip-1.json" := Json Samples.bare;
                        "eip-7702.json" := Json Samples.included ]} [])
              "eip-1.json") as [Hdisk _].
  - discriminate.
  - rewrite Hdisk. vm_compute. reflexivity.
Defined.

(** X9: a file that parses to something other than an object stops the
    batch.  [data.get] raises, nothing catches it, and the world stays the
    one in which that file was reached: nothing is written or printed for
    it, the files after it are not read, and no summary is printed. *)
Theorem non_object_stops_the_batch path w data :
  disk w !! path = Some (Json data) →
  is_dict data = false →
  migrate_eip_file path w = Raised AttributeError w ∧
  (∀ rest migrated,
     migrate_files (path :: rest) migrated w = Raised AttributeError w) ∧
  (∀ before rest w0 migrated,
     migrate_files before 0
       (World (faults w0) (disk w0)
          (trace w0 ++ [Print (Found (length (before ++ path :: rest)))]))
     = Returned migrated w →
     main (Some (before ++ path :: rest)) w0 = Raised AttributeError w).
Proof.
  intros Hfile Hdata.
  assert (migrate_eip_file path w = Raised AttributeError w) as Hrun.
  { rewrite migrate_eip_file_eq, Hfile.
    destruct (migrate_data data) as [e|[]] eqn:Hmig.
    - by apply migrate_data_raises in Hmig as [_ ->].
    - by destruct data. }
  split_and!; [done|..].
  - intros rest migrated. by rewrite migrate_files_cons, Hrun.
  - intros before rest w0 migrated Hbefore.
    rewrite main_eq, migrate_files_app, Hbefore.
    by rewrite migrate_files_cons, Hrun.
Qed.

Lemma non_object_stops_the_batch_witness :
  let w := World Samples.no_faults {[ "eip-1.json" := Json (JList []);
                    "eip-7702.json" := Json Samples.included ]} [] in
  migrate_eip_file "eip-1.json" w = Raised AttributeError w ∧
  migrate_files ["eip-1.json"; "eip-7702.json"] 0 w = Raised AttributeError w.
Proof.
  cbv zeta.
  destruct (non_object_stops_the_batch "eip-1.json"
              (World Samples.no_faults {[ "eip-1.json" := Json (JList []);
                        "eip-7702.json" := Json Samples.included ]} [])
              (JList [])) as (Hfile & Hloop & _).
  - vm_compute. reflexivity.
  - reflexivity.
  - split; [exact Hfile|apply Hloop].
Defined.



(** X11: the summary counts the writes.  In a run that returns, the trace
    is extended by the line of line 67, the lines of the loop and the
    summary; the count of migrated files is the number of files written,
    each written file is announced, and the files written are files of the
    listing, in its order. *)
Theorem migrated_counts_writes files w w' :
  main (Some files) w = Returned () w' →
  ∃ tr migrated,
    trace w'
    = trace w ++ [Print (Found (length files))] ++ tr
      ++ summary (Z.of_nat (length files)) migrated ∧
    migrated = Z.of_nat (length (written tr)) ∧
    announced tr = written tr ∧
    written tr `sublist_of` files.
Proof.
  rewrite main_eq.
  destruct (migrate_files files 0 _) as [m w1|e1 w1] eqn:Hloop; [|done].
  intros [= <-].
  apply migrate_files_trace in Hloop as (tr & Htr & -> & Hann & Hwr).
  exists tr, (Z.of_nat (length (written tr))). simpl in *.
  split_and!; [|done..].
  by rewrite Htr, <-!app_assoc.
Qed.

Lemma migrated_counts_writes_witness :
  ∃ w' tr migrated,
    main (Some ["bad.json"; "eip-7702.json"])
         (World Samples.no_faults {[ "bad.json" := Malformed;
                   "eip-7702.json" := Json Samples.included ]} [])
    = Returned () w' ∧
    trace w' = [Print (Found 2)] ++ tr ++ summary 2 migrated ∧
    migrated = Z.of_nat (length (written tr)).
Proof.
  eexists.
  destruct (migrated_counts_writes ["bad.json"; "eip-7702.json"]
              (World Samples.no_faults {[ "bad.json" := Malformed;
                        "eip-7702.json" := Json Samples.included ]} [])
              (World Samples.no_faults {[ "bad.json" := Malformed;
                        "eip-7702.json" := Json (Samples.doc
                          [JDict [("statusHistory",
                             JList [JDict [("status", JStr "Included")]])]]) ]}
                     ([Print (Found 2);
                       Print (ErrorReading "bad.json");
                       WriteText "eip-7702.json" (Samples.doc
                          [JDict [("statusHistory",
                             JList [JDict [("status", JStr "Included")]])]]);
                       Print (MigratedFile "eip-7702.json")]
                      ++ summary 2 1)))
    as (tr & migrated & Htr & Hm & _).
  - vm_compute. reflexivity.
  - exists tr, migrated.
    split_and!; [vm_compute; reflexivity|exact Htr|exact Hm].
Defined.

(** X12: a run that returns leaves every listed file settled: a listed file
    that parses is an object, and no element of its [forkRelationships]
    array, if it has one, has a [status] that is a string. *)
Theorem run_settles_every_file files w w' :
  main (Some files) w = Returned () w' →
  ∀ path data,
    path ∈ files → disk w' !! path = Some (Json data) →
    is_dict data = true ∧
    ∀ forks, forks_of data = Some forks →
             ∀ fork, fork ∈ forks → string_status fork = false.
Proof.
  rewrite main_eq.
  destruct (migrate_files files 0 _) as [m w1|e1 w1] eqn:Hloop; [|done].
  intros [= <-] path data Hin Hfile.
  apply migrate_files_settles in Hloop as [_ Hall].
  by apply (settled_spec (disk w1 !! path)); [apply Hall|].
Qed.

Lemma run_settles_every_file_witness :
  ∃ w' data,
    main (Some ["eip-7702.json"])
         (Samples.on_disk "eip-7702.json" (Json Samples.included))
    = Returned () w' ∧
    disk w' !! "eip-7702.json" = Some (Json data) ∧
    ∀ forks, forks_of data = Some forks →
             ∀ fork, fork ∈ forks → string_status fork = false.
Proof.
  eexists _, _. split; [vm_compute; reflexivity|].
  split; [vm_compute; reflexivity|].
  eapply (run_settles_every_file ["eip-7702.json"]
            (Samples.on_disk "eip-7702.json" (Json Samples.included))
            _ ltac:(vm_compute; reflexivity) "eip-7702.json").
  - apply list_elem_of_here.
  - vm_compute. reflexivity.
Defined.

(** X13: the batch is safe to run again.  After a run that returns, a
    second run on the same listing returns too, writes nothing, leaves the
    directory as it is, and reports zero files migrated. *)
Theorem second_run_changes_nothing files w w1 :
  main (Some files) w = Returned () w1 →
  ∃ w2 tr,
    main (Some files) w1 = Returned () w2 ∧
    disk w2 = disk w1 ∧
    trace w2 = trace w1 ++ tr ++ summary (Z.of_nat (length files)) 0 ∧
    written tr = [].
Proof.
  rewrite main_eq.
  destruct (migrate_files files 0 _) as [m w0|e0 w0] eqn:Hloop; [|done].
  intros [= <-]. apply migrate_files_settles in Hloop as [_ Hall].
  rewrite main_eq. simpl.
  set (w1 := World (faults w0) (disk w0) _).
  destruct (migrate_files_settled files 0 w1) as (tr & -> & Hwr).
  { apply Forall_forall. intros p Hin. by apply Hall. }
  eexists _, ([Print (Found (length files))] ++ tr). simpl.
  split_and!; [done|done| |done].
  by rewrite <-!app_assoc.
Qed.

Lemma second_run_changes_nothing_witness :
  ∃ w1 w2,
    main (Some ["eip-7702.json"])
         (Samples.on_disk "eip-7702.json" (Json Samples.included))
    = Returned () w1 ∧
    main (Some ["eip-7702.json"]) w1 = Returned () w2 ∧
    disk w2 = disk w1.
Proof.
  eexists.
  destruct (second_run_changes_nothing ["eip-7702.json"]
              (Samples.on_disk "eip-7702.json" (Json Samples.included))
              (World Samples.no_faults {[ "eip-7702.json" := Json (Samples.doc
                          [JDict [("statusHistory",
                             JList [JDict [("status", JStr "Included")]])]]) ]}
                     ([Print (Found 1);
                       WriteText "eip-7702.json" (Samples.doc
                          [JDict [("statusHistory",
                             JList [JDict [("status", JStr "Included")]])]]);
                       Print (MigratedFile "eip-7702.json")]
                      ++ summary 1 1)))
    as (w2 & tr & Hrun & Hdisk & _).
  - vm_compute. reflexivity.
  - exists w2. split_and!; [vm_compute; reflexivity|exact Hrun|exact Hdisk].
Defined.


